(** * pysqueezelite: a shallow embedding of [pysqueezelite.py]

    The class [PySqueezelite] launches the external squeezelite player,
    finds the media server by SSDP discovery and talks to it through pylms.
    Everything outside the file (the file system, the [ssdp] and [pylms]
    libraries, [subprocess]) is an oracle of the environment [Env]; every
    call into it is recorded in a trace, and an oracle answers from the
    trace so far, so that two calls need not answer alike.  Methods are
    computations in a state-and-exception monad over the instance and the
    trace: a raised exception keeps the assignments made before it, as in
    Python. *)

From Stdlib Require Import ZArith List String Ascii Bool Lia DecimalString.
Import ListNotations.
Open Scope string_scope.

(** ** Python values and exceptions *)

(** The values the wrapper passes around without looking inside: [None],
    strings, integers, and any other object by its identity. *)
Inductive pyval : Type :=
| PyNone
| PyStr (s : string)
| PyInt (z : Z)
| PyObj (id : nat).

(** [PySqueezeliteError] is the one exception class the file declares; the
    others come out of the interpreter or of the libraries. *)
Inductive exn : Type :=
| PySqueezeliteError (msg : string)
| CalledProcessError (returncode : Z) (cmd : list string)
| AttributeError (attr : string)
| IndexError
| LibraryError (msg : string).

Inductive PyResult (A : Type) : Type :=
| Ok (a : A)
| Raise (e : exn).
Arguments Ok {A} a.
Arguments Raise {A} e.

(** [str.format] of an integer: decimal, with a sign when negative. *)
Definition str_of_int (z : Z) : string := NilZero.string_of_int (Z.to_int z).

(** Truth value of an optional string: [None] and the empty string are
    false. *)
Definition truthy (v : option string) : bool :=
  match v with
  | Some s => negb (s =? "")
  | None => false
  end.

(** ** The outside world *)

(** One discovered device, as [__discover_server] reads it. *)
Record SSDPResponse : Type := mkResponse { ip : string; port : Z }.

(** [Server(hostname=..., port=...)] *)
Record Server : Type := mkServer { hostname : option string; sport : Z }.

Inductive event : Type :=
| EIsFile (p : string)
| EDiscover (service : string)
| EServerConnect (srv : Server)
| EGetPlayer (srv : Server) (ref : option string)
| ECall (cmd : list string)
| ECheckOutput (cmd : list string)
| EInvoke (obj : pyval) (name : string).

(** The events that touch the network or the process table; [os.path.isfile]
    is the only call that does neither. *)
Definition is_network (e : event) : bool :=
  match e with
  | EDiscover _ | EServerConnect _ | EGetPlayer _ _ | EInvoke _ _ => true
  | _ => false
  end.

Definition is_process (e : event) : bool :=
  match e with
  | ECall _ | ECheckOutput _ => true
  | _ => false
  end.

Definition is_discovery (e : event) : bool :=
  match e with
  | EDiscover _ => true
  | _ => false
  end.

Definition is_connection (e : event) : bool :=
  match e with
  | EServerConnect _ | EGetPlayer _ _ => true
  | _ => false
  end.

(** [kill -9 pid], for some pid. *)
Definition is_kill_signal (e : event) : bool :=
  match e with
  | ECall ("kill" :: _) => true
  | _ => false
  end.

Record Env : Type := mkEnv {
  (** [os.path.isfile] *)
  isfile : list event -> string -> bool;
  (** [ssdp.discover]: the responses collected, a false entry as [None] *)
  ssdp_discover : list event -> string -> PyResult (list (option SSDPResponse));
  (** [Server.connect] *)
  server_connect : list event -> Server -> PyResult unit;
  (** [Server.get_player] *)
  server_get_player : list event -> Server -> option string -> PyResult pyval;
  (** running a command: its exit status and its standard output, or the
      exception of a command that could not be run *)
  run : list event -> list string -> PyResult (Z * string);
  (** truth value of an object *)
  obj_bool : nat -> bool;
  (** [hasattr(obj, name)] *)
  py_hasattr : list event -> pyval -> string -> bool;
  (** [obj.name()] for an attribute that is there *)
  py_invoke : list event -> pyval -> string -> PyResult pyval
}.

(** ** The instance *)

Record PySqueezelite : Type := mkSelf {
  path : string;
  playername : option string;
  mac : option string;
  server : option string;
  args : option string;
  lmsport : Z;
  telnetport : Z;
  (** the attributes below do not exist until a method assigns them *)
  devices : option (list SSDPResponse);
  matches : option (list string);
  sc : option Server;
  player : option pyval
}.

Definition set_server (v : option string) (o : PySqueezelite) : PySqueezelite :=
  mkSelf (path o) (playername o) (mac o) v (args o) (lmsport o) (telnetport o)
         (devices o) (matches o) (sc o) (player o).

Definition set_devices (v : list SSDPResponse) (o : PySqueezelite) : PySqueezelite :=
  mkSelf (path o) (playername o) (mac o) (server o) (args o) (lmsport o)
         (telnetport o) (Some v) (matches o) (sc o) (player o).

Definition set_matches (v : list string) (o : PySqueezelite) : PySqueezelite :=
  mkSelf (path o) (playername o) (mac o) (server o) (args o) (lmsport o)
         (telnetport o) (devices o) (Some v) (sc o) (player o).

Definition set_sc (v : Server) (o : PySqueezelite) : PySqueezelite :=
  mkSelf (path o) (playername o) (mac o) (server o) (args o) (lmsport o)
         (telnetport o) (devices o) (matches o) (Some v) (player o).

Definition set_player (v : pyval) (o : PySqueezelite) : PySqueezelite :=
  mkSelf (path o) (playername o) (mac o) (server o) (args o) (lmsport o)
         (telnetport o) (devices o) (matches o) (sc o) (Some v).

(** ** The monad of methods *)

Record state : Type := mkState { self : PySqueezelite; trace : list event }.

Definition M (A : Type) : Type := state -> PyResult A * state.

Definition ret {A} (a : A) : M A := fun st => (Ok a, st).

Definition raise {A} (e : exn) : M A := fun st => (Raise e, st).

Definition bind {A B} (m : M A) (k : A -> M B) : M B :=
  fun st =>
    match m st with
    | (Ok a, st') => k a st'
    | (Raise e, st') => (Raise e, st')
    end.

Declare Scope py_scope.
Delimit Scope py_scope with py.
Notation "x <- m ;; k" := (bind m (fun x => k))
  (at level 61, m at next level, right associativity) : py_scope.
Notation "m ;;; k" := (bind m (fun _ => k))
  (at level 61, right associativity) : py_scope.
Open Scope py_scope.

Definition get_self : M PySqueezelite := fun st => (Ok (self st), st).

Definition modify (f : PySqueezelite -> PySqueezelite) : M unit :=
  fun st => (Ok tt, mkState (f (self st)) (trace st)).

(** A call out of the file: the oracle answers from the trace so far and the
    call is appended to it, whether it returns or raises. *)
Definition extern {A} (ev : event) (answer : list event -> PyResult A) : M A :=
  fun st => (answer (trace st), mkState (self st) (trace st ++ [ev])%list).

(** The commands a computation adds to the trace. *)
Definition emitted {A} (m : M A) (st : state) : list event :=
  skipn (List.length (trace st)) (trace (snd (m st))).

Section Methods.

Variable env : Env.

(** ** [__init__] *)

Record InitArgs : Type := mkArgs {
  a_path : string;
  a_plname : option string;
  a_mac : option string;
  a_server : option string;
  a_args : option string;
  a_lmsport : Z;
  a_telnetport : Z
}.

(** The defaults of the signature. *)
Definition default_args : InitArgs :=
  mkArgs "/usr/bin/squeezelite" (Some "Squeezelite") (Some "12:34:56:78:90:AB")
         None None 9000%Z 9090%Z.

Definition fresh (a : InitArgs) : PySqueezelite :=
  mkSelf (a_path a) (a_plname a) (a_mac a) (a_server a) (a_args a)
         (a_lmsport a) (a_telnetport a) None None None None.

(** The constructor runs on the new object; the caller gets the object only
    when it returns. *)
Definition init (a : InitArgs) (tr : list event) : PyResult PySqueezelite * list event :=
  let body : M unit :=
    o <- get_self ;;
    found <- extern (EIsFile (path o)) (fun h => Ok (isfile env h (path o))) ;;
    if negb found
    then raise (PySqueezeliteError ("Can't find " ++ "squeezelite at " ++ path o))
    else ret tt in
  match body (mkState (fresh a) tr) with
  | (Ok _, st) => (Ok (self st), trace st)
  | (Raise e, st) => (Raise e, trace st)
  end.

(** ** [__discover_server] *)

(** [[x for x in ... if x]] *)
Fixpoint true_entries (l : list (option SSDPResponse)) : list SSDPResponse :=
  match l with
  | [] => []
  | Some x :: r => x :: true_entries r
  | None :: r => true_entries r
  end.

(** [[x.ip for x in self.devices if x.port == self.lmsport]] *)
Fixpoint ips_on_port (p : Z) (l : list SSDPResponse) : list string :=
  match l with
  | [] => []
  | x :: r => if (port x =? p)%Z then ip x :: ips_on_port p r else ips_on_port p r
  end.

Definition multiple_servers_msg (p : Z) : string :=
  "Multiple servers found on " ++ "port " ++ str_of_int p
  ++ ". Need to set server ip address " ++ "when calling " ++ "PySqueezelite.".

Definition no_servers_msg (p : Z) : string :=
  "No servers found on " ++ "port " ++ str_of_int p
  ++ ". Please check LMS is " ++ "running and the correct "
  ++ "port has been set.".

Definition discover_server : M string :=
  found <- extern (EDiscover "ssdp:all") (fun h => ssdp_discover env h "ssdp:all") ;;
  modify (set_devices (true_entries found)) ;;;
  o <- get_self ;;
  let ms := ips_on_port (lmsport o) (true_entries found) in
  modify (set_matches ms) ;;;
  if (1 <? List.length ms)%nat
  then raise (PySqueezeliteError (multiple_servers_msg (lmsport o)))
  else if (List.length ms =? 0)%nat
  then raise (PySqueezeliteError (no_servers_msg (lmsport o)))
  else match ms with
       | m0 :: _ => ret m0
       | [] => raise IndexError
       end.

(** ** [connect] *)

Definition connect (host : option string) (p : Z) : M unit :=
  let srv := mkServer host p in
  modify (set_sc srv) ;;;
  extern (EServerConnect srv) (fun h => server_connect env h srv) ;;;
  o <- get_self ;;
  pl <- extern (EGetPlayer srv (mac o)) (fun h => server_get_player env h srv (mac o)) ;;
  modify (set_player pl).

(** ** [subprocess] *)

(** [subprocess.call]: the exit status, whatever it is. *)
Definition subprocess_call (cmd : list string) : M Z :=
  r <- extern (ECall cmd) (fun h => run env h cmd) ;;
  ret (fst r).

(** [subprocess.check_output]: the output of a command that exits with 0,
    [CalledProcessError] for any other status. *)
Definition subprocess_check_output (cmd : list string) : M string :=
  r <- extern (ECheckOutput cmd) (fun h => run env h cmd) ;;
  if (fst r =? 0)%Z then ret (snd r) else raise (CalledProcessError (fst r) cmd).

(** ** [start] *)

(** [command += [flag, value]] under [if value:] *)
Definition flag_if_set (flag : string) (v : option string) : list string :=
  match v with
  | Some s => if truthy v then [flag; s] else []
  | None => []
  end.

(** [command += [self.args]] under [if self.args:] *)
Definition args_if_set (v : option string) : list string :=
  match v with
  | Some s => if truthy v then [s] else []
  | None => []
  end.

Definition command_of (o : PySqueezelite) : list string :=
  ([path o; "-z"]
   ++ flag_if_set "-n" (playername o)
   ++ flag_if_set "-m" (mac o)
   ++ flag_if_set "-s" (server o)
   ++ args_if_set (args o))%list.

Definition start : M unit :=
  o <- get_self ;;
  (if negb (truthy (server o))
   then found <- discover_server ;; modify (set_server (Some found))
   else ret tt) ;;;
  o <- get_self ;;
  connect (server o) (telnetport o) ;;;
  o <- get_self ;;
  subprocess_call (command_of o) ;;;
  ret tt.

(** ** [kill] *)

(** The characters [str.strip()] removes. *)
Definition is_space (c : ascii) : bool :=
  let n := nat_of_ascii c in
  ((n =? 32) || (n =? 9) || (n =? 10) || (n =? 13) || (n =? 11) || (n =? 12))%nat.

Fixpoint lstrip (s : string) : string :=
  match s with
  | String c r => if is_space c then lstrip r else s
  | EmptyString => EmptyString
  end.

Fixpoint rstrip (s : string) : string :=
  match s with
  | String c r =>
      let r' := rstrip r in
      if is_space c && (r' =? "") then EmptyString else String c r'
  | EmptyString => EmptyString
  end.

Definition strip (s : string) : string := rstrip (lstrip s).

(** [s.split(sep)] for a separator of one character: the pieces between the
    separators, empty ones included. *)
Fixpoint split_on (sep : ascii) (s : string) : list string :=
  match s with
  | EmptyString => [EmptyString]
  | String c r =>
      if Ascii.eqb c sep then EmptyString :: split_on sep r
      else match split_on sep r with
           | w :: ws => String c w :: ws
           | [] => [String c EmptyString]
           end
  end.

Fixpoint for_each {A} (l : list A) (body : A -> M unit) : M unit :=
  match l with
  | [] => ret tt
  | x :: r => body x ;;; for_each r body
  end.

(** The output of [pidof] is a [str], as in Python 2, which the file is
    written for. *)
Definition kill : M unit :=
  o <- get_self ;;
  out <- subprocess_check_output ["pidof"; path o] ;;
  let pids := strip out in
  for_each (split_on " "%char pids)
           (fun pid => subprocess_call ["kill"; "-9"; pid] ;;; ret tt).

(** ** [get_player_info] and the commands *)

(** Reading [self.player]: the attribute is not there before [connect]. *)
Definition read_player : M pyval :=
  o <- get_self ;;
  match player o with
  | Some v => ret v
  | None => raise (AttributeError "player")
  end.

Definition py_bool (v : pyval) : bool :=
  match v with
  | PyNone => false
  | PyStr s => negb (s =? "")
  | PyInt z => negb (z =? 0)%Z
  | PyObj id => obj_bool env id
  end.

Definition hasattr (v : pyval) (name : string) : M bool :=
  fun st => (Ok (py_hasattr env (trace st) v name), st).

(** [getattr(v, name)()] *)
Definition invoke (v : pyval) (name : string) : M pyval :=
  extern (EInvoke v name) (fun h => py_invoke env h v name).

(** [v.name()]: the attribute is looked up first. *)
Definition call_method (v : pyval) (name : string) : M pyval :=
  has <- hasattr v name ;;
  if has then invoke v name else raise (AttributeError name).

(** The expression statement [self.connect] looks the bound method up and
    drops it: nothing is called. *)
Definition get_player_info (info : string) : M pyval :=
  p <- read_player ;;
  (if negb (py_bool p)
   then _ <- ret connect ;; ret tt
   else ret tt) ;;;
  p <- read_player ;;
  has <- hasattr p info ;;
  if has
  then p <- read_player ;; invoke p info
  else ret PyNone.

Definition play_pause : M unit :=
  p <- read_player ;; call_method p "toggle" ;;; ret tt.

Definition stop : M unit :=
  p <- read_player ;; call_method p "stop" ;;; ret tt.

Definition next_track : M unit :=
  p <- read_player ;; call_method p "next" ;;; ret tt.

Definition prev_track : M unit :=
  p <- read_player ;; call_method p "prev" ;;; ret tt.

Definition track_title : M pyval := get_player_info "get_track_title".
Definition track_artist : M pyval := get_player_info "get_track_artist".
Definition track_album : M pyval := get_player_info "get_track_album".
Definition track_duration : M pyval := get_player_info "get_track_duration".
Definition track_time : M pyval := get_player_info "get_time_elapsed".

(** ** Every operation of an instance *)

Inductive op : Type :=
| OpStart
| OpKill
| OpConnect (host : option string) (p : Z)
| OpGetPlayerInfo (info : string)
| OpPlayPause
| OpStop
| OpNextTrack
| OpPrevTrack
| OpTrackTitle
| OpTrackArtist
| OpTrackAlbum
| OpTrackDuration
| OpTrackTime.

(** A method without a [return] gives [None]. *)
Definition returning_none (m : M unit) : M pyval := m ;;; ret PyNone.

Definition run_op (c : op) : M pyval :=
  match c with
  | OpStart => returning_none start
  | OpKill => returning_none kill
  | OpConnect host p => returning_none (connect host p)
  | OpGetPlayerInfo info => get_player_info info
  | OpPlayPause => returning_none play_pause
  | OpStop => returning_none stop
  | OpNextTrack => returning_none next_track
  | OpPrevTrack => returning_none prev_track
  | OpTrackTitle => track_title
  | OpTrackArtist => track_artist
  | OpTrackAlbum => track_album
  | OpTrackDuration => track_duration
  | OpTrackTime => track_time
  end.

End Methods.

(** ** Notions the properties are stated with *)

(** An entry of a response set that advertises port [p]. *)
Definition on_port (p : Z) (e : option SSDPResponse) : bool :=
  match e with
  | Some x => (port x =? p)%Z
  | None => false
  end.

(** The configuration of an instance: the seven values the constructor
    stores. *)
Definition config (o : PySqueezelite) : InitArgs :=
  mkArgs (path o) (playername o) (mac o) (server o) (args o) (lmsport o)
         (telnetport o).

Definition with_server (v : option string) (a : InitArgs) : InitArgs :=
  mkArgs (a_path a) (a_plname a) (a_mac a) v (a_args a) (a_lmsport a)
         (a_telnetport a).

Definition is_start (c : op) : bool :=
  match c with
  | OpStart => true
  | _ => false
  end.

(** The part of [start] after the server address is settled. *)
Definition launch (env : Env) : M unit :=
  o <- get_self ;;
  connect env (server o) (telnetport o) ;;;
  o <- get_self ;;
  subprocess_call env (command_of o) ;;;
  ret tt.

(** [keeps f m]: running [m] does not change what [f] reads off the
    instance. *)
Definition keeps {X A} (f : PySqueezelite -> X) (m : M A) : Prop :=
  forall st, f (self (snd (m st))) = f (self st).

(** [emits P m]: running [m] extends the trace, by events that satisfy [P]
    only. *)
Definition emits {A} (P : event -> bool) (m : M A) : Prop :=
  forall st, exists evs,
    trace (snd (m st)) = (trace st ++ evs)%list /\ forallb P evs = true.

(** The instance of the launch example: player Kitchen on server 10.0.0.5
    with the extra arguments [--foo bar]. *)
Definition kitchen (binary : string) : PySqueezelite :=
  fresh (mkArgs binary (Some "Kitchen") (Some "AA:BB:CC:DD:EE:FF")
                (Some "10.0.0.5") (Some "--foo bar") 9000%Z 9090%Z).

(** ** A small network to run the methods on *)

Module Sample.

Definition lms : SSDPResponse := mkResponse "192.168.1.50" 9000%Z.
Definition second_lms : SSDPResponse := mkResponse "192.168.1.51" 9000%Z.
Definition printer : SSDPResponse := mkResponse "192.168.1.77" 631%Z.

Definition queries : list string :=
  ["get_track_title"; "get_track_artist"; "get_track_album";
   "get_track_duration"; "get_time_elapsed"].

(** A machine with squeezelite installed, the devices [resp] on the network,
    a server that knows the player, and [pids] as the running players. *)
Definition world (resp : list (option SSDPResponse)) (pids : list string) : Env :=
  mkEnv
    (fun _ p => p =? "/usr/bin/squeezelite")
    (fun _ _ => Ok resp)
    (fun _ _ => Ok tt)
    (fun _ _ _ => Ok (PyObj 1))
    (fun _ cmd =>
       match cmd with
       | "pidof" :: _ =>
           match pids with
           | [] => Ok (1%Z, "")
           | _ => Ok (0%Z, String.concat " " pids ++ String "010"%char "")
           end
       | _ => Ok (0%Z, "")
       end)
    (fun _ => true)
    (fun _ v name =>
       match v with
       | PyObj _ => existsb (String.eqb name) queries
       | _ => false
       end)
    (fun _ _ name => Ok (PyStr ("<" ++ name ++ ">"))).

(** An instance made with the defaults: no server address given. *)
Definition unconfigured : state := mkState (fresh default_args) [].

(** The same instance once connected. *)
Definition connected : state :=
  mkState (set_player (PyObj 1)
             (set_sc (mkServer (Some "192.168.1.50") 9090%Z)
                (set_server (Some "192.168.1.50") (fresh default_args)))) [].

End Sample.

(** ** Notions for the properties of the other methods *)

(** The operations that read the player handle: the four commands, the five
    properties and [get_player_info]. *)
Definition uses_player (c : op) : bool :=
  match c with
  | OpStart | OpKill | OpConnect _ _ => false
  | _ => true
  end.

(** The operations with an assignment to [self] in their body. *)
Definition assigns (c : op) : bool :=
  match c with
  | OpStart | OpConnect _ _ => true
  | _ => false
  end.

(** The four commands with the player method each one calls. *)
Definition transport (env : Env) : list (M unit * string) :=
  [(play_pause env, "toggle"); (stop env, "stop");
   (next_track env, "next"); (prev_track env, "prev")].




(** [self.matches], whenever it exists, is read off [self.devices]. *)
Definition matches_agree (o : PySqueezelite) : Prop :=
  matches o = option_map (ips_on_port (lmsport o)) (devices o).

(** A network whose server refuses the connection. *)
Module Outage.

Definition world : Env :=
  mkEnv
    (fun _ p => p =? "/usr/bin/squeezelite")
    (fun _ _ => Ok [Some Sample.lms])
    (fun _ _ => Raise (LibraryError "Connection refused"))
    (fun _ _ _ => Ok PyNone)
    (fun _ _ => Ok (0%Z, ""))
    (fun _ => true)
    (fun _ _ _ => false)
    (fun _ _ _ => Ok PyNone).

End Outage.

(** * Properties *)

(** ** Traces *)

Lemma skipn_past {A} (l r : list A) : skipn (List.length l) (l ++ r)%list = r.
Proof. induction l as [|x l IH]; simpl; auto. Qed.

Lemma emitted_of_trace {A} (m : M A) (st : state) (evs : list event) :
  trace (snd (m st)) = (trace st ++ evs)%list -> emitted m st = evs.
Proof. unfold emitted. intros ->. apply skipn_past. Qed.

(** ** Discovery *)

Section Discovery.

Variable env : Env.

(** What [__discover_server] does once the responses are in. *)
Lemma discover_server_run (st : state) (resp : list (option SSDPResponse)) :
  ssdp_discover env (trace st) "ssdp:all" = Ok resp ->
  let p := lmsport (self st) in
  let ms := ips_on_port p (true_entries resp) in
  discover_server env st =
    (match ms with
     | [] => Raise (PySqueezeliteError (no_servers_msg p))
     | [m0] => Ok m0
     | _ :: _ :: _ => Raise (PySqueezeliteError (multiple_servers_msg p))
     end,
     mkState (set_matches ms (set_devices (true_entries resp) (self st)))
             (trace st ++ [EDiscover "ssdp:all"])%list).
Proof.
  intros Hd p ms. unfold discover_server, bind, extern, modify, get_self.
  rewrite Hd. cbn [self trace set_devices set_matches lmsport].
  fold p. fold ms. destruct ms as [|m0 [|m1 r]]; reflexivity.
Qed.

Lemma discover_server_trace (st : state) :
  trace (snd (discover_server env st)) = (trace st ++ [EDiscover "ssdp:all"])%list.
Proof.
  destruct (ssdp_discover env (trace st) "ssdp:all") as [resp|e] eqn:Hd.
  - rewrite (discover_server_run st resp Hd). reflexivity.
  - unfold discover_server, bind, extern. rewrite Hd. reflexivity.
Qed.

Lemma discover_server_emits (st : state) :
  emitted (discover_server env) st = [EDiscover "ssdp:all"].
Proof. apply emitted_of_trace, discover_server_trace. Qed.

Lemma ips_none (p : Z) (resp : list (option SSDPResponse)) :
  (forall d, In (Some d) resp -> port d <> p) ->
  ips_on_port p (true_entries resp) = [].
Proof.
  induction resp as [|[x|] r IH]; intros H; simpl; auto.
  - destruct (Z.eqb_spec (port x) p) as [E|_].
    + exfalso. apply (H x); simpl; auto.
    + apply IH. intros d Hin. apply H. simpl; auto.
  - apply IH. intros d Hin. apply H. simpl; auto.
Qed.

Lemma ips_some (p : Z) (resp : list (option SSDPResponse)) (d : SSDPResponse) :
  In (Some d) resp -> port d = p ->
  (1 <= List.length (ips_on_port p (true_entries resp)))%nat.
Proof.
  induction resp as [|[x|] r IH]; intros Hin Hp; simpl in *.
  - contradiction.
  - destruct Hin as [E|Hin].
    + injection E as ->. rewrite (proj2 (Z.eqb_eq _ _) Hp). simpl. lia.
    + destruct (port x =? p)%Z; simpl; [lia | auto].
  - destruct Hin as [E|Hin]; [discriminate | auto].
Qed.

Lemma ips_two (p : Z) (resp : list (option SSDPResponse)) :
  forall (i j : nat) (d1 d2 : SSDPResponse),
  nth_error resp i = Some (Some d1) -> nth_error resp j = Some (Some d2) ->
  i <> j -> port d1 = p -> port d2 = p ->
  (2 <= List.length (ips_on_port p (true_entries resp)))%nat.
Proof.
  induction resp as [|e r IH]; intros i j d1 d2 Hi Hj Hij H1 H2.
  - destruct i; discriminate.
  - destruct i as [|i], j as [|j]; simpl in Hi, Hj.
    + congruence.
    + injection Hi as ->. simpl. rewrite (proj2 (Z.eqb_eq _ _) H1). simpl.
      pose proof (ips_some p r d2 (nth_error_In _ _ Hj) H2). lia.
    + injection Hj as ->. simpl. rewrite (proj2 (Z.eqb_eq _ _) H2). simpl.
      pose proof (ips_some p r d1 (nth_error_In _ _ Hi) H1). lia.
    + assert (Hr : (2 <= List.length (ips_on_port p (true_entries r)))%nat)
        by (apply (IH i j d1 d2); auto).
      destruct e as [x|]; simpl; [destruct (port x =? p)%Z; simpl; lia | exact Hr].
Qed.

Lemma ips_one (p : Z) (resp : list (option SSDPResponse)) :
  forall (i : nat) (d : SSDPResponse),
  nth_error resp i = Some (Some d) -> port d = p ->
  (forall j d', nth_error resp j = Some (Some d') -> port d' = p -> j = i) ->
  ips_on_port p (true_entries resp) = [ip d].
Proof.
  induction resp as [|e r IH]; intros i d Hi Hp Huniq.
  - destruct i; discriminate.
  - destruct i as [|i]; simpl in Hi.
    + injection Hi as ->. simpl. rewrite (proj2 (Z.eqb_eq _ _) Hp). f_equal.
      apply ips_none. intros d' Hin E.
      destruct (In_nth_error _ _ Hin) as [j Hj].
      specialize (Huniq (S j) d' Hj E). discriminate.
    + assert (Hr : ips_on_port p (true_entries r) = [ip d]).
      { apply (IH i d Hi Hp). intros j d' Hj E.
        specialize (Huniq (S j) d' Hj E). lia. }
      destruct e as [x|]; simpl; auto.
      destruct (Z.eqb_spec (port x) p) as [E|_]; auto.
      specialize (Huniq 0%nat x eq_refl E). discriminate.
Qed.

(** C1: when two different entries of the response set advertise the
    configured server port, [__discover_server] raises the "Multiple servers
    found" error and returns no address. *)
Theorem discover_server_ambiguous (st : state) (resp : list (option SSDPResponse))
    (i j : nat) (d1 d2 : SSDPResponse) :
  ssdp_discover env (trace st) "ssdp:all" = Ok resp ->
  nth_error resp i = Some (Some d1) ->
  nth_error resp j = Some (Some d2) ->
  i <> j ->
  on_port (lmsport (self st)) (Some d1) = true ->
  on_port (lmsport (self st)) (Some d2) = true ->
  fst (discover_server env st)
    = Raise (PySqueezeliteError (multiple_servers_msg (lmsport (self st))))
  /\ forall a, fst (discover_server env st) <> Ok a.
Proof.
  intros Hd Hi Hj Hij H1 H2. simpl in H1, H2.
  apply Z.eqb_eq in H1. apply Z.eqb_eq in H2.
  pose proof (ips_two _ resp i j d1 d2 Hi Hj Hij H1 H2) as Hlen.
  rewrite (discover_server_run st resp Hd). cbn [fst].
  destruct (ips_on_port (lmsport (self st)) (true_entries resp)) as [|m0 [|m1 r]];
    simpl in Hlen; try lia.
  split; [reflexivity | discriminate].
Qed.

(** C2: when no entry of the response set advertises the configured server
    port, [__discover_server] raises the "No servers found" error, and the
    one discovery query is all it has sent: it does not try again. *)
Theorem discover_server_not_found (st : state) (resp : list (option SSDPResponse)) :
  ssdp_discover env (trace st) "ssdp:all" = Ok resp ->
  (forall e, In e resp -> on_port (lmsport (self st)) e = false) ->
  fst (discover_server env st)
    = Raise (PySqueezeliteError (no_servers_msg (lmsport (self st))))
  /\ emitted (discover_server env) st = [EDiscover "ssdp:all"].
Proof.
  intros Hd Hno. split; [|apply discover_server_emits].
  rewrite (discover_server_run st resp Hd). cbn [fst].
  rewrite ips_none; [reflexivity|].
  intros d Hin E. specialize (Hno _ Hin). simpl in Hno.
  apply Z.eqb_neq in Hno. contradiction.
Qed.

(** C3: when exactly one entry of the response set advertises the configured
    server port, [__discover_server] returns the address of that entry as it
    is, and raises nothing. *)
Theorem discover_server_unique (st : state) (resp : list (option SSDPResponse))
    (i : nat) (d : SSDPResponse) :
  ssdp_discover env (trace st) "ssdp:all" = Ok resp ->
  nth_error resp i = Some (Some d) ->
  on_port (lmsport (self st)) (Some d) = true ->
  (forall j e, nth_error resp j = Some e ->
               on_port (lmsport (self st)) e = true -> j = i) ->
  fst (discover_server env st) = Ok (ip d).
Proof.
  intros Hd Hi Hp Huniq. simpl in Hp. apply Z.eqb_eq in Hp.
  rewrite (discover_server_run st resp Hd). cbn [fst].
  rewrite (ips_one _ resp i d Hi Hp); [reflexivity|].
  intros j d' Hj E. apply (Huniq j (Some d') Hj). simpl. now apply Z.eqb_eq.
Qed.

End Discovery.

(** ** What a computation leaves alone *)

Section Frames.

Context {X : Type} (f : PySqueezelite -> X) (P : event -> bool).

Lemma keeps_ret {A} (a : A) : keeps f (ret a).
Proof. intros st. reflexivity. Qed.

Lemma keeps_raise {A} (e : exn) : keeps f (@raise A e).
Proof. intros st. reflexivity. Qed.

Lemma keeps_get_self : keeps f get_self.
Proof. intros st. reflexivity. Qed.

Lemma keeps_extern {A} (ev : event) (answer : list event -> PyResult A) :
  keeps f (extern ev answer).
Proof. intros st. reflexivity. Qed.

Lemma keeps_modify (g : PySqueezelite -> PySqueezelite) :
  (forall o, f (g o) = f o) -> keeps f (modify g).
Proof. intros Hg st. apply Hg. Qed.

Lemma keeps_bind {A B} (m : M A) (k : A -> M B) :
  keeps f m -> (forall a, keeps f (k a)) -> keeps f (bind m k).
Proof.
  intros Hm Hk st. unfold bind. specialize (Hm st).
  destruct (m st) as [[a|e] st1]; simpl in *.
  - rewrite (Hk a st1). exact Hm.
  - exact Hm.
Qed.

Lemma keeps_for_each {A} (l : list A) (body : A -> M unit) :
  (forall a, keeps f (body a)) -> keeps f (for_each l body).
Proof.
  intros Hb. induction l as [|x r IH]; simpl.
  - apply keeps_ret.
  - apply keeps_bind; auto.
Qed.

Lemma emits_ret {A} (a : A) : emits P (ret a).
Proof. intros st. exists []. simpl. now rewrite app_nil_r. Qed.

Lemma emits_raise {A} (e : exn) : emits P (@raise A e).
Proof. intros st. exists []. simpl. now rewrite app_nil_r. Qed.

Lemma emits_get_self : emits P get_self.
Proof. intros st. exists []. simpl. now rewrite app_nil_r. Qed.

Lemma emits_modify (g : PySqueezelite -> PySqueezelite) : emits P (modify g).
Proof. intros st. exists []. simpl. now rewrite app_nil_r. Qed.

Lemma emits_extern {A} (ev : event) (answer : list event -> PyResult A) :
  P ev = true -> emits P (extern ev answer).
Proof. intros Hev st. exists [ev]. simpl. now rewrite Hev. Qed.

Lemma emits_bind {A B} (m : M A) (k : A -> M B) :
  emits P m -> (forall a, emits P (k a)) -> emits P (bind m k).
Proof.
  intros Hm Hk st. unfold bind. destruct (Hm st) as [e1 [T1 F1]].
  destruct (m st) as [[a|e] st1]; simpl in *.
  - destruct (Hk a st1) as [e2 [T2 F2]]. exists (e1 ++ e2)%list. split.
    + rewrite T2, T1. now rewrite app_assoc.
    + rewrite forallb_app, F1, F2. reflexivity.
  - exists e1. auto.
Qed.

Lemma emits_for_each {A} (l : list A) (body : A -> M unit) :
  (forall a, emits P (body a)) -> emits P (for_each l body).
Proof.
  intros Hb. induction l as [|x r IH]; simpl.
  - apply emits_ret.
  - apply emits_bind; auto.
Qed.

End Frames.

Lemma emits_filter {A} (P : event -> bool) (m : M A) (st : state) :
  emits (fun e => negb (P e)) m -> filter P (emitted m st) = [].
Proof.
  intros Hm. destruct (Hm st) as [evs [T F]].
  rewrite (emitted_of_trace m st evs T). clear T.
  induction evs as [|e r IH]; simpl in *; auto.
  apply andb_prop in F as [F1 F2]. apply negb_true_iff in F1.
  rewrite F1. auto.
Qed.

(** Splits a computation into its steps; what is left are the assignments
    and the calls out of the file. *)
Ltac steps :=
  repeat first
    [ apply keeps_ret | apply keeps_raise | apply keeps_get_self
    | apply keeps_extern
    | apply keeps_bind; [|intros]
    | apply emits_ret | apply emits_raise | apply emits_get_self
    | apply emits_modify
    | apply emits_bind; [|intros]
    | apply emits_extern; reflexivity
    | apply keeps_modify; intros; reflexivity
    | match goal with
      | |- keeps _ (if ?b then _ else _) => destruct b
      | |- emits _ (if ?b then _ else _) => destruct b
      | |- keeps _ (match ?x with _ => _ end) => destruct x
      | |- emits _ (match ?x with _ => _ end) => destruct x
      end ].

Section Operations.

Variable env : Env.

(** *** [connect], [subprocess], the player *)

Lemma hasattr_keeps {X} (f : PySqueezelite -> X) v name :
  keeps f (hasattr env v name).
Proof. intros st. reflexivity. Qed.

Lemma hasattr_emits P v name : emits P (hasattr env v name).
Proof. intros st. exists []. simpl. now rewrite app_nil_r. Qed.

Lemma connect_keeps_config host p : keeps config (connect env host p).
Proof. unfold connect. steps. Qed.

Lemma connect_no_discovery host p :
  emits (fun e => negb (is_discovery e)) (connect env host p).
Proof. unfold connect. steps. Qed.

Lemma subprocess_call_keeps {X} (f : PySqueezelite -> X) cmd :
  keeps f (subprocess_call env cmd).
Proof. unfold subprocess_call. steps. Qed.

Lemma subprocess_check_output_keeps {X} (f : PySqueezelite -> X) cmd :
  keeps f (subprocess_check_output env cmd).
Proof. unfold subprocess_check_output. steps. Qed.

Lemma read_player_keeps {X} (f : PySqueezelite -> X) : keeps f read_player.
Proof. unfold read_player. steps. Qed.

Lemma read_player_emits P : emits P read_player.
Proof. unfold read_player. steps. Qed.

Lemma call_method_keeps {X} (f : PySqueezelite -> X) v name :
  keeps f (call_method env v name).
Proof.
  unfold call_method, invoke.
  apply keeps_bind; [apply hasattr_keeps | intros; steps].
Qed.

Lemma get_player_info_keeps {X} (f : PySqueezelite -> X) info :
  keeps f (get_player_info env info).
Proof.
  unfold get_player_info, invoke.
  apply keeps_bind; [apply read_player_keeps | intros p].
  apply keeps_bind; [steps | intros _].
  apply keeps_bind; [apply read_player_keeps | intros p'].
  apply keeps_bind; [apply hasattr_keeps | intros has].
  destruct has; [|steps].
  apply keeps_bind; [apply read_player_keeps | intros; steps].
Qed.

Lemma get_player_info_no_connection info :
  emits (fun e => negb (is_connection e)) (get_player_info env info).
Proof.
  unfold get_player_info, invoke.
  apply emits_bind; [apply read_player_emits | intros p].
  apply emits_bind; [steps | intros _].
  apply emits_bind; [apply read_player_emits | intros p'].
  apply emits_bind; [apply hasattr_emits | intros has].
  destruct has; [|steps].
  apply emits_bind; [apply read_player_emits | intros; steps].
Qed.

Lemma kill_keeps {X} (f : PySqueezelite -> X) : keeps f (kill env).
Proof.
  unfold kill.
  apply keeps_bind; [steps | intros o].
  apply keeps_bind; [apply subprocess_check_output_keeps | intros out].
  apply keeps_for_each. intros pid.
  apply keeps_bind; [apply subprocess_call_keeps | intros; steps].
Qed.

Lemma discover_server_keeps_config : keeps config (discover_server env).
Proof. unfold discover_server. steps. Qed.

Lemma launch_keeps_config : keeps config (launch env).
Proof.
  unfold launch.
  apply keeps_bind; [steps | intros o].
  apply keeps_bind; [apply connect_keeps_config | intros _].
  apply keeps_bind; [steps | intros o'].
  apply keeps_bind; [apply subprocess_call_keeps | intros; steps].
Qed.

Lemma launch_no_discovery :
  emits (fun e => negb (is_discovery e)) (launch env).
Proof.
  unfold launch.
  apply emits_bind; [steps | intros o].
  apply emits_bind; [apply connect_no_discovery | intros _].
  apply emits_bind; [steps | intros o'].
  unfold subprocess_call. steps.
Qed.

(** [start] is discovery, when the server address is not set, and then
    [launch]. *)
Lemma start_run (st : state) :
  start env st =
    if truthy (server (self st)) then launch env st
    else match discover_server env st with
         | (Ok found, st1) =>
             launch env (mkState (set_server (Some found) (self st1)) (trace st1))
         | (Raise e, st1) => (Raise e, st1)
         end.
Proof.
  unfold start, launch, bind at 1 2, get_self at 1.
  destruct (truthy (server (self st))); simpl.
  - destruct st; reflexivity.
  - unfold bind at 1. destruct (discover_server env st) as [[found|e] st1]; reflexivity.
Qed.

End Operations.

(** ** The claims about construction, launch and the session *)

Lemma filter_none (P : event -> bool) (evs : list event) :
  forallb (fun e => negb (P e)) evs = true -> filter P evs = [].
Proof.
  induction evs as [|e r IH]; simpl; auto.
  intros F. apply andb_prop in F as [F1 F2]. apply negb_true_iff in F1.
  rewrite F1. auto.
Qed.

Section Claims.

Variable env : Env.

(** C4: the constructor asks the file system for the binary and nothing
    else.  When the path names no file it raises the "Can't find
    squeezelite" error, and nothing has gone to the network or to the
    process table by then; when the path names a file it returns the
    instance. *)
Theorem init_checks_binary (a : InitArgs) (tr : list event) :
  init env a tr
    = (if isfile env tr (a_path a) then Ok (fresh a)
       else Raise (PySqueezeliteError ("Can't find squeezelite at " ++ a_path a)),
       (tr ++ [EIsFile (a_path a)])%list)
  /\ existsb (fun e => is_network e || is_process e)
             (skipn (List.length tr) (snd (init env a tr))) = false.
Proof.
  assert (E : init env a tr
    = (if isfile env tr (a_path a) then Ok (fresh a)
       else Raise (PySqueezeliteError ("Can't find squeezelite at " ++ a_path a)),
       (tr ++ [EIsFile (a_path a)])%list)).
  { unfold init, bind, extern, get_self. cbn [self trace fresh path].
    destruct (isfile env tr (a_path a)); reflexivity. }
  split; [exact E|]. rewrite E. cbn [snd]. rewrite skipn_past. reflexivity.
Qed.

(** C6: [start] sends a discovery query exactly when the server address is
    not set: none with an address given at construction, one without. *)
Theorem start_discovers_iff_no_server (st : state) :
  filter is_discovery (emitted (start env) st)
    = if truthy (server (self st)) then [] else [EDiscover "ssdp:all"].
Proof.
  destruct (truthy (server (self st))) eqn:Hs.
  - unfold emitted. rewrite start_run, Hs.
    apply (emits_filter is_discovery (launch env) st), launch_no_discovery.
  - unfold emitted. rewrite start_run, Hs.
    pose proof (discover_server_trace env st) as T.
    destruct (discover_server env st) as [[found|e] st1]; cbn [snd] in *.
    + destruct (launch_no_discovery env
                  (mkState (set_server (Some found) (self st1)) (trace st1)))
        as [evs [T2 F]].
      cbn [trace] in T2. rewrite T2, T, <- app_assoc, skipn_past.
      simpl. now rewrite filter_none.
    + rewrite T, skipn_past. reflexivity.
Qed.

(** C7: when [pidof] exits with a status other than 0, as it does when no
    process runs the binary, [kill] raises the [CalledProcessError] of the
    lookup and has sent no [kill -9]. *)
Theorem kill_without_process (st : state) (rc : Z) (out : string) :
  run env (trace st) ["pidof"; path (self st)] = Ok (rc, out) ->
  rc <> 0%Z ->
  kill env st
    = (Raise (CalledProcessError rc ["pidof"; path (self st)]),
       mkState (self st) (trace st ++ [ECheckOutput ["pidof"; path (self st)]])%list)
  /\ filter is_kill_signal (emitted (kill env) st) = [].
Proof.
  intros Hr Hrc.
  assert (E : kill env st
    = (Raise (CalledProcessError rc ["pidof"; path (self st)]),
       mkState (self st) (trace st ++ [ECheckOutput ["pidof"; path (self st)]])%list)).
  { unfold kill, subprocess_check_output, bind, extern, get_self.
    rewrite Hr. cbn [fst snd]. apply Z.eqb_neq in Hrc. rewrite Hrc. reflexivity. }
  split; [exact E|]. unfold emitted. rewrite E. cbn [snd trace].
  rewrite skipn_past. reflexivity.
Qed.

(** C8: with a player handle in place, [get_player_info] returns [None],
    calling nothing, for a name the player has no attribute for, and the
    outcome of calling the attribute for a name it has. *)
Theorem get_player_info_dispatch (st : state) (p : pyval) (info : string) :
  player (self st) = Some p ->
  get_player_info env info st
    = if py_hasattr env (trace st) p info
      then (py_invoke env (trace st) p info,
            mkState (self st) (trace st ++ [EInvoke p info])%list)
      else (Ok PyNone, st).
Proof.
  intros Hp.
  unfold get_player_info, read_player, hasattr, invoke, bind, extern, get_self, ret.
  rewrite Hp. destruct (py_bool env p); cbn; rewrite Hp;
    destruct (py_hasattr env (trace st) p info); cbn; rewrite ?Hp; reflexivity.
Qed.

(** C9, as the code has it: no operation changes the binary path, the
    display name, the hardware address, the extra arguments or the two
    ports, and none but [start] changes the server address; [start] on an
    instance without a server address stores the address that discovery
    returns, and leaves the field alone when discovery raises. *)
Theorem config_changes_by_discovery_only (c : op) (st : state) :
  config (self (snd (run_op env c st)))
    = if is_start c && negb (truthy (server (self st)))
      then match fst (discover_server env st) with
           | Ok found => with_server (Some found) (config (self st))
           | Raise _ => config (self st)
           end
      else config (self st).
Proof.
  assert (Hnone : forall m : M unit,
             keeps config m -> keeps config (returning_none m)).
  { intros m Hm. unfold returning_none. steps. exact Hm. }
  assert (Hself : forall (m : M unit) s,
             self (snd (returning_none m s)) = self (snd (m s))).
  { intros m s. unfold returning_none, bind. now destruct (m s) as [[u|e] s1]. }
  destruct c; cbn [is_start andb run_op];
    try (apply Hnone; unfold play_pause, stop, next_track, prev_track).
  - (* start *)
    rewrite Hself, start_run.
    destruct (truthy (server (self st))) eqn:Hs; cbn [negb].
    + apply launch_keeps_config.
    + pose proof (discover_server_keeps_config env st) as K.
      destruct (discover_server env st) as [[found|e] st1]; cbn [fst snd] in *.
      * rewrite launch_keeps_config. cbn [self]. rewrite <- K. reflexivity.
      * exact K.
  - apply kill_keeps.
  - apply connect_keeps_config.
  - apply get_player_info_keeps.
  - apply keeps_bind; [apply read_player_keeps | intros].
    apply keeps_bind; [apply call_method_keeps | intros; steps].
  - apply keeps_bind; [apply read_player_keeps | intros].
    apply keeps_bind; [apply call_method_keeps | intros; steps].
  - apply keeps_bind; [apply read_player_keeps | intros].
    apply keeps_bind; [apply call_method_keeps | intros; steps].
  - apply keeps_bind; [apply read_player_keeps | intros].
    apply keeps_bind; [apply call_method_keeps | intros; steps].
  - apply get_player_info_keeps.
  - apply get_player_info_keeps.
  - apply get_player_info_keeps.
  - apply get_player_info_keeps.
  - apply get_player_info_keeps.
Qed.

(** C10: [get_player_info] leaves the server connection and the player
    handle of the instance as they were, whatever they were, and sends
    nothing that opens a connection or looks a player up: the guard on a
    missing player names [connect] and does not call it. *)
Theorem get_player_info_keeps_session (info : string) (st : state) :
  sc (self (snd (get_player_info env info st))) = sc (self st)
  /\ player (self (snd (get_player_info env info st))) = player (self st)
  /\ filter is_connection (emitted (get_player_info env info) st) = [].
Proof.
  split; [apply (get_player_info_keeps env sc)|].
  split; [apply (get_player_info_keeps env player)|].
  apply emits_filter, get_player_info_no_connection.
Qed.

End Claims.

(** C5: for the Kitchen configuration [start] spawns the binary with [-z]
    first, then the name, the hardware address and the server address each
    behind its flag, and the extra arguments last as the one token
    [--foo bar]: neither [--foo] nor [bar] is an argument of its own. *)
Theorem kitchen_command (binary : string) :
  command_of (kitchen binary)
    = [binary; "-z"; "-n"; "Kitchen"; "-m"; "AA:BB:CC:DD:EE:FF";
       "-s"; "10.0.0.5"; "--foo bar"]
  /\ emitted (start (Sample.world [] []))
             (mkState (kitchen "/usr/bin/squeezelite") [])
     = [EServerConnect (mkServer (Some "10.0.0.5") 9090%Z);
        EGetPlayer (mkServer (Some "10.0.0.5") 9090%Z) (Some "AA:BB:CC:DD:EE:FF");
        ECall (command_of (kitchen "/usr/bin/squeezelite"))]
  /\ ~ In "--foo" (tl (command_of (kitchen binary)))
  /\ ~ In "bar" (tl (command_of (kitchen binary))).
Proof.
  split; [reflexivity|]. split; [reflexivity|].
  split; cbn; intros H; repeat (destruct H as [H|H]; [discriminate|]); exact H.
Qed.

(** ** The methods on the sample network *)

Import Sample.

Example init_default :
  init (world [] []) default_args []
    = (Ok (fresh default_args), [EIsFile "/usr/bin/squeezelite"]).
Proof. reflexivity. Qed.

Example init_missing_binary :
  init (world [] []) (with_server None (config (kitchen "/opt/squeezelite"))) []
    = (Raise (PySqueezeliteError "Can't find squeezelite at /opt/squeezelite"),
       [EIsFile "/opt/squeezelite"]).
Proof. reflexivity. Qed.

Example start_discovers :
  emitted (start (world [Some printer; None; Some lms] [])) unconfigured
    = [EDiscover "ssdp:all";
       EServerConnect (mkServer (Some "192.168.1.50") 9090%Z);
       EGetPlayer (mkServer (Some "192.168.1.50") 9090%Z) (Some "12:34:56:78:90:AB");
       ECall ["/usr/bin/squeezelite"; "-z"; "-n"; "Squeezelite";
              "-m"; "12:34:56:78:90:AB"; "-s"; "192.168.1.50"]].
Proof. reflexivity. Qed.

Example kill_two_players :
  emitted (kill (world [] ["12"; "345"])) connected
    = [ECheckOutput ["pidof"; "/usr/bin/squeezelite"];
       ECall ["kill"; "-9"; "12"]; ECall ["kill"; "-9"; "345"]].
Proof. reflexivity. Qed.

Example split_keeps_empty_pieces :
  split_on " "%char "a  b" = ["a"; ""; "b"] /\ split_on " "%char "" = [""].
Proof. split; reflexivity. Qed.

Example track_title_before_connect :
  fst (track_title (world [] []) unconfigured) = Raise (AttributeError "player").
Proof. reflexivity. Qed.

(** C9 as stated fails: [start] on an instance made without a server
    address stores the discovered address in the server field. *)
Lemma start_stores_discovered_server :
  config (self (snd (run_op (world [Some lms] []) OpStart unconfigured)))
    <> config (self unconfigured).
Proof. vm_compute. discriminate. Qed.

(** *** The theorems at concrete inputs *)

Lemma discover_server_ambiguous_witness :
  fst (discover_server (world [Some lms; None; Some second_lms] []) unconfigured)
    = Raise (PySqueezeliteError
               "Multiple servers found on port 9000. Need to set server ip address when calling PySqueezelite.")
  /\ forall a,
       fst (discover_server (world [Some lms; None; Some second_lms] []) unconfigured)
         <> Ok a.
Proof.
  apply (discover_server_ambiguous
           (world [Some lms; None; Some second_lms] []) unconfigured
           [Some lms; None; Some second_lms] 0 2 lms second_lms);
    [reflexivity | reflexivity | reflexivity | discriminate
    | reflexivity | reflexivity].
Defined.

Lemma discover_server_not_found_witness :
  fst (discover_server (world [Some printer; None] []) unconfigured)
    = Raise (PySqueezeliteError
               "No servers found on port 9000. Please check LMS is running and the correct port has been set.")
  /\ emitted (discover_server (world [Some printer; None] [])) unconfigured
     = [EDiscover "ssdp:all"].
Proof.
  apply (discover_server_not_found
           (world [Some printer; None] []) unconfigured [Some printer; None]).
  - reflexivity.
  - intros e [<-|[<-|[]]]; reflexivity.
Defined.

Lemma discover_server_unique_witness :
  fst (discover_server (world [Some printer; Some lms; None] []) unconfigured)
    = Ok "192.168.1.50".
Proof.
  apply (discover_server_unique
           (world [Some printer; Some lms; None] []) unconfigured
           [Some printer; Some lms; None] 1 lms).
  - reflexivity.
  - reflexivity.
  - reflexivity.
  - intros [|[|[|j]]] e Hj He; simpl in Hj.
    + injection Hj as <-. discriminate He.
    + reflexivity.
    + injection Hj as <-. discriminate He.
    + destruct j; discriminate Hj.
Defined.

Lemma kill_without_process_witness :
  kill (world [] []) connected
    = (Raise (CalledProcessError 1 ["pidof"; "/usr/bin/squeezelite"]),
       mkState (self connected) [ECheckOutput ["pidof"; "/usr/bin/squeezelite"]])
  /\ filter is_kill_signal (emitted (kill (world [] [])) connected) = [].
Proof.
  apply (kill_without_process (world [] []) connected 1%Z "");
    [reflexivity | discriminate].
Defined.

Lemma get_player_info_dispatch_witness :
  get_player_info (world [] []) "get_volume" connected = (Ok PyNone, connected).
Proof.
  apply (get_player_info_dispatch (world [] []) connected (PyObj 1) "get_volume").
  reflexivity.
Defined.

(** ** The other methods *)

Section Launch.

Variable env : Env.

(** What [launch] does, by the answers of the server and of the spawn. *)
Lemma launch_run (st : state) :
  let o := self st in
  let srv := mkServer (server o) (telnetport o) in
  let t1 := (trace st ++ [EServerConnect srv])%list in
  let t2 := (t1 ++ [EGetPlayer srv (mac o)])%list in
  launch env st =
    match server_connect env (trace st) srv with
    | Raise e => (Raise e, mkState (set_sc srv o) t1)
    | Ok _ =>
        match server_get_player env t1 srv (mac o) with
        | Raise e => (Raise e, mkState (set_sc srv o) t2)
        | Ok pl =>
            (match run env t2 (command_of o) with
             | Ok _ => Ok tt
             | Raise e => Raise e
             end,
             mkState (set_player pl (set_sc srv o))
                     (t2 ++ [ECall (command_of o)])%list)
        end
    end.
Proof.
  intros o srv t1 t2. subst o srv t1 t2.
  unfold launch, connect, subprocess_call, bind, extern, modify, get_self, ret.
  cbn [self trace].
  destruct (server_connect env (trace st) _) as [u|e]; [|reflexivity].
  cbn [self trace set_sc mac].
  destruct (server_get_player env _ _ (mac (self st))) as [pl|e]; [|reflexivity].
  cbn [self trace].
  change (command_of (set_player pl (set_sc _ (self st))))
    with (command_of (self st)).
  destruct (run env _ (command_of (self st))) as [r|e]; reflexivity.
Qed.

(** A [launch] that returns has connected, looked the player up and spawned
    the command, in this order. *)
Lemma launch_success (st : state) :
  fst (launch env st) = Ok tt ->
  let o := self st in
  let srv := mkServer (server o) (telnetport o) in
  exists pl,
    server_get_player env (trace st ++ [EServerConnect srv])%list srv (mac o) = Ok pl
    /\ snd (launch env st)
       = mkState (set_player pl (set_sc srv o))
           (trace st ++ [EServerConnect srv; EGetPlayer srv (mac o);
                         ECall (command_of o)])%list.
Proof.
  intros H o srv. subst o srv. rewrite launch_run in *. cbv zeta in *.
  destruct (server_connect env (trace st) _) as [u|e]; [|discriminate H].
  destruct (server_get_player env _ _ (mac (self st))) as [pl|e] eqn:Hpl;
    [|discriminate H].
  exists pl. split; [reflexivity|]. cbn [snd].
  now rewrite <- !app_assoc.
Qed.

(** A [launch] whose connection or player lookup fails spawns nothing. *)
Lemma launch_without_session (st : state) :
  (forall h srv, exists e, server_connect env h srv = Raise e)
  \/ (forall h srv m, exists e, server_get_player env h srv m = Raise e) ->
  (exists e, fst (launch env st) = Raise e)
  /\ exists evs, trace (snd (launch env st)) = (trace st ++ evs)%list
                 /\ filter is_process evs = [].
Proof.
  intros H. rewrite launch_run. cbv zeta.
  set (srv := mkServer (server (self st)) (telnetport (self st))).
  destruct (server_connect env (trace st) srv) as [u|e] eqn:Hc.
  - destruct H as [H|H].
    + destruct (H (trace st) srv) as [e He]. congruence.
    + destruct (H (trace st ++ [EServerConnect srv])%list srv (mac (self st)))
        as [e He].
      rewrite He. split; [now exists e|].
      exists [EServerConnect srv; EGetPlayer srv (mac (self st))].
      split; [cbn [snd trace]; now rewrite <- app_assoc | reflexivity].
  - split; [now exists e|]. exists [EServerConnect srv]. now split.
Qed.

(** X1: a [start] that returns has sent, in this order, the discovery query
    (only when no server address was set), the connection to the server
    address now stored, the lookup of the player by the hardware address, and
    one spawn of the command built from the configuration; the instance then
    holds that server object and the player the lookup returned. *)
Theorem start_success (st : state) :
  fst (start env st) = Ok tt ->
  let o' := self (snd (start env st)) in
  let srv := mkServer (server o') (telnetport o') in
  let pre := if truthy (server (self st)) then [] else [EDiscover "ssdp:all"] in
  emitted (start env) st
    = (pre ++ [EServerConnect srv; EGetPlayer srv (mac o'); ECall (command_of o')])%list
  /\ sc o' = Some srv
  /\ exists pl,
       player o' = Some pl
       /\ server_get_player env (trace st ++ pre ++ [EServerConnect srv])%list
                            srv (mac o') = Ok pl.
Proof.
  intros H. cbv zeta. unfold emitted. rewrite start_run in *.
  destruct (truthy (server (self st))).
  - destruct (launch_success st H) as [pl [Hpl E]]. cbv zeta in *.
    rewrite E. cbn [self trace]. rewrite skipn_past.
    split; [reflexivity|]. split; [reflexivity|].
    exists pl. split; [reflexivity | exact Hpl].
  - pose proof (discover_server_trace env st) as T.
    destruct (discover_server env st) as [[found|e] st1]; cbn [snd] in T;
      [|discriminate H].
    destruct (launch_success _ H) as [pl [Hpl E]]. cbv zeta in *.
    cbn [self trace] in *. rewrite E. cbn [self trace].
    rewrite T, <- app_assoc, skipn_past.
    split; [reflexivity|]. split; [reflexivity|].
    exists pl. split; [reflexivity|].
    rewrite T, <- app_assoc in Hpl. exact Hpl.
Qed.

(** X2: when the server refuses every connection, or every player lookup
    fails, [start] raises and has spawned no process. *)
Theorem start_without_session_spawns_nothing (st : state) :
  (forall h srv, exists e, server_connect env h srv = Raise e)
  \/ (forall h srv m, exists e, server_get_player env h srv m = Raise e) ->
  (exists e, fst (start env st) = Raise e)
  /\ filter is_process (emitted (start env) st) = [].
Proof.
  intros H. unfold emitted. rewrite start_run.
  destruct (truthy (server (self st))).
  - destruct (launch_without_session st H) as [He [evs [T F]]].
    split; [exact He|]. now rewrite T, skipn_past.
  - pose proof (discover_server_trace env st) as T.
    destruct (discover_server env st) as [[found|e] st1]; cbn [snd] in T.
    + destruct (launch_without_session
                  (mkState (set_server (Some found) (self st1)) (trace st1)) H)
        as [He [evs [T2 F]]].
      split; [exact He|]. cbn [trace] in T2.
      rewrite T2, T, <- app_assoc, skipn_past. simpl. exact F.
    + split; [now exists e|]. cbn [snd]. now rewrite T, skipn_past.
Qed.

(** X3: when no server address is set and discovery raises, [start] raises
    the same exception right after the discovery query: it opens no
    connection, spawns nothing and leaves the server address, the server
    object and the player handle as they were. *)
Theorem start_discovery_failure (st : state) (e : exn) :
  truthy (server (self st)) = false ->
  fst (discover_server env st) = Raise e ->
  fst (start env st) = Raise e
  /\ emitted (start env) st = [EDiscover "ssdp:all"]
  /\ server (self (snd (start env st))) = server (self st)
  /\ sc (self (snd (start env st))) = sc (self st)
  /\ player (self (snd (start env st))) = player (self st).
Proof.
  intros Hs Hd. unfold emitted. rewrite start_run, Hs.
  pose proof (discover_server_trace env st) as T.
  assert (K : keeps (fun o => (server o, sc o, player o)) (discover_server env))
    by (unfold discover_server; steps).
  specialize (K st).
  destruct (discover_server env st) as [[found|e'] st1]; cbn [fst snd] in *;
    [discriminate Hd|].
  injection Hd as ->. injection K as K1 K2 K3.
  rewrite T, skipn_past. repeat split; assumption.
Qed.

(** X4: an address that discovery returned stays in the instance whatever
    happens next, so that a second [start] sends no discovery query, also
    after a first one that failed to connect. *)
Theorem start_again_skips_discovery (st : state) (found : string) :
  truthy (server (self st)) = false ->
  fst (discover_server env st) = Ok found ->
  found <> "" ->
  server (self (snd (start env st))) = Some found
  /\ filter is_discovery (emitted (start env) (snd (start env st))) = [].
Proof.
  intros Hs Hd Hne.
  assert (E : server (self (snd (start env st))) = Some found).
  { rewrite start_run, Hs.
    destruct (discover_server env st) as [[a|e] st1]; cbn [fst] in Hd;
      [|discriminate Hd].
    injection Hd as ->.
    pose proof (launch_keeps_config env
                  (mkState (set_server (Some found) (self st1)) (trace st1))) as K.
    cbn [self] in K. unfold config in K. now injection K. }
  split; [exact E|].
  unfold emitted. rewrite (start_run env (snd (start env st))), E.
  apply String.eqb_neq in Hne. cbn [truthy]. rewrite Hne. cbn [negb].
  apply (emits_filter is_discovery (launch env)), launch_no_discovery.
Qed.

End Launch.

(** ** Strings: what [kill] reads off the output of [pidof] *)










Lemma split_on_cons (sep : ascii) (s : string) :
  exists w ws, split_on sep s = w :: ws.
Proof.
  induction s as [|c s [w [ws IH]]]; simpl; [now exists "", []|].
  destruct (Ascii.eqb c sep); [now exists "", (split_on sep s)|].
  rewrite IH. now exists (String c w), ws.
Qed.





Section Others.

Variable env : Env.


(** X5: [connect] stores the new server object before it connects, and the
    player handle only after the lookup: after a [connect] that raised, the
    instance holds the new server object with the player handle it had
    before; after one that returned, the handle the lookup gave. *)
Theorem connect_outcome (host : option string) (p : Z) (st : state) :
  let srv := mkServer host p in
  let st' := snd (connect env host p st) in
  sc (self st') = Some srv
  /\ match fst (connect env host p st) with
     | Ok _ =>
         exists pl,
           player (self st') = Some pl
           /\ server_get_player env (trace st ++ [EServerConnect srv])%list
                                srv (mac (self st)) = Ok pl
     | Raise _ => player (self st') = player (self st)
     end.
Proof.
  cbv zeta. unfold connect, bind, extern, modify, get_self. cbn [self trace].
  destruct (server_connect env (trace st) _) as [u|e]; cbn [fst snd self];
    [|split; reflexivity].
  cbn [set_sc mac].
  destruct (server_get_player env _ _ (mac (self st))) as [pl|e] eqn:Hpl;
    cbn [fst snd self]; split; try reflexivity.
  exists pl. split; reflexivity.
Qed.


(** X7: on an instance that has not connected, every command and every
    query raises [AttributeError] for [player]; nothing is sent and the
    instance is as before. *)
Theorem player_needed (c : op) (st : state) :
  uses_player c = true ->
  player (self st) = None ->
  run_op env c st = (Raise (AttributeError "player"), st).
Proof.
  intros Hc Hp.
  destruct c; try discriminate Hc;
    cbn [run_op];
    unfold returning_none, play_pause, stop, next_track, prev_track,
      track_title, track_artist, track_album, track_duration, track_time,
      get_player_info, read_player, bind, get_self;
    rewrite Hp; reflexivity.
Qed.

(** X8: with a player handle in place, each of the four commands calls its
    one player method ([toggle], [stop], [next], [prev]) once and drops what
    it returns; an exception of the method comes out unchanged, and a handle
    without the method, [None] for one, gives [AttributeError] with nothing
    sent. *)
Theorem transport_dispatch (m : M unit) (name : string) (st : state) (p : pyval) :
  In (m, name) (transport env) ->
  player (self st) = Some p ->
  m st = if py_hasattr env (trace st) p name
         then (match py_invoke env (trace st) p name with
               | Ok _ => Ok tt
               | Raise e => Raise e
               end,
               mkState (self st) (trace st ++ [EInvoke p name])%list)
         else (Raise (AttributeError name), st).
Proof.
  intros Hin Hp.
  assert (G : forall n,
    (q <- read_player ;; call_method env q n ;;; ret tt) st
      = if py_hasattr env (trace st) p n
        then (match py_invoke env (trace st) p n with
              | Ok _ => Ok tt
              | Raise e => Raise e
              end,
              mkState (self st) (trace st ++ [EInvoke p n])%list)
        else (Raise (AttributeError n), st)).
  { intros n.
    unfold read_player, call_method, hasattr, invoke, bind, extern, get_self, ret.
    rewrite Hp. destruct (py_hasattr env (trace st) p n); [|reflexivity].
    destruct (py_invoke env (trace st) p n); reflexivity. }
  simpl in Hin.
  destruct Hin as [E|[E|[E|[E|[]]]]]; injection E as <- <-; apply G.
Qed.

End Others.

Section Instance.

Variable env : Env.

Lemma ips_singleton (p : Z) (resp : list (option SSDPResponse)) (a : string) :
  ips_on_port p (true_entries resp) = [a] ->
  exists i d,
    nth_error resp i = Some (Some d) /\ ip d = a /\ on_port p (Some d) = true
    /\ forall j e, nth_error resp j = Some e -> on_port p e = true -> j = i.
Proof.
  induction resp as [|e r IH]; intros H; [discriminate H|].
  assert (Skip : on_port p e = false ->
                 ips_on_port p (true_entries r) = [a] ->
                 exists i d,
                   nth_error (e :: r) i = Some (Some d) /\ ip d = a
                   /\ on_port p (Some d) = true
                   /\ forall j e', nth_error (e :: r) j = Some e' ->
                                   on_port p e' = true -> j = i).
  { intros He Hr. destruct (IH Hr) as [i [d [Hi [Ha [Hp U]]]]].
    exists (S i), d. repeat split; auto.
    intros [|j] e' Hj He'; simpl in Hj.
    - injection Hj as <-. congruence.
    - f_equal. exact (U j e' Hj He'). }
  destruct e as [x|]; simpl in H; [|now apply Skip].
  destruct (port x =? p)%Z eqn:Hx; [|now apply Skip].
  injection H as Ha Hr. exists 0%nat, x. repeat split; auto.
  intros [|j] e' Hj He'; [reflexivity|]. simpl in Hj. exfalso.
  destruct e' as [d'|]; [|discriminate He']. simpl in He'.
  apply Z.eqb_eq in He'.
  pose proof (ips_some p r d' (nth_error_In _ _ Hj) He') as L.
  rewrite Hr in L. simpl in L. lia.
Qed.

(** X9: [__discover_server] returns an address only when the discovery
    query returned and exactly one entry of its response set advertises the
    configured server port; the address is that entry's. *)
Theorem discover_server_returns_the_only_match (st : state) (a : string) :
  fst (discover_server env st) = Ok a ->
  exists resp i d,
    ssdp_discover env (trace st) "ssdp:all" = Ok resp
    /\ nth_error resp i = Some (Some d)
    /\ ip d = a
    /\ on_port (lmsport (self st)) (Some d) = true
    /\ forall j e, nth_error resp j = Some e ->
                   on_port (lmsport (self st)) e = true -> j = i.
Proof.
  intros H.
  destruct (ssdp_discover env (trace st) "ssdp:all") as [resp|e] eqn:Hd.
  - rewrite (discover_server_run env st resp Hd) in H. cbn [fst] in H.
    destruct (ips_on_port (lmsport (self st)) (true_entries resp))
      as [|m0 [|m1 r]] eqn:Hm; try discriminate H.
    injection H as ->.
    destruct (ips_singleton _ _ _ Hm) as [i [d Hid]].
    exists resp, i, d. split; [reflexivity | exact Hid].
  - unfold discover_server, bind, extern in H. rewrite Hd in H. discriminate H.
Qed.

Lemma returning_none_keeps {X} (f : PySqueezelite -> X) (m : M unit) :
  keeps f m -> keeps f (returning_none m).
Proof. intros Hm. unfold returning_none. steps. exact Hm. Qed.

Lemma transport_keeps {X} (f : PySqueezelite -> X) (name : string) :
  keeps f (q <- read_player ;; call_method env q name ;;; ret tt).
Proof.
  apply keeps_bind; [apply read_player_keeps | intros].
  apply keeps_bind; [apply call_method_keeps | intros; steps].
Qed.

(** What only [start] and [connect] can change. *)
Lemma other_ops_keep {X} (f : PySqueezelite -> X) (c : op) :
  assigns c = false -> keeps f (run_op env c).
Proof.
  intros Hc. destruct c; try discriminate Hc; cbn [run_op];
    try (apply returning_none_keeps);
    try (apply kill_keeps);
    try (apply get_player_info_keeps);
    apply transport_keeps.
Qed.

(** X10: only [start] and [connect] assign to the instance: [kill], the
    four commands, the five properties and [get_player_info] leave every
    attribute as it was, whether they return or raise. *)
Theorem only_start_and_connect_assign (c : op) (st : state) :
  assigns c = false ->
  self (snd (run_op env c st)) = self st.
Proof. intros Hc. exact (other_ops_keep (fun o => o) c Hc st). Qed.




Lemma agree_of_keeps {A} (m : M A) (st : state) :
  keeps (fun o => (devices o, matches o, lmsport o)) m ->
  matches_agree (self st) -> matches_agree (self (snd (m st))).
Proof.
  intros K. specialize (K st). unfold matches_agree.
  injection K as -> -> ->. auto.
Qed.

Lemma discover_server_agrees (st : state) :
  matches_agree (self st) -> matches_agree (self (snd (discover_server env st))).
Proof.
  intros H.
  destruct (ssdp_discover env (trace st) "ssdp:all") as [resp|e] eqn:Hd.
  - rewrite (discover_server_run env st resp Hd). reflexivity.
  - unfold discover_server, bind, extern. rewrite Hd. exact H.
Qed.

(** X12: the two lists discovery leaves on the instance stay in step under
    every operation: whenever [self.matches] exists, it is the list of the
    addresses of the devices of [self.devices] on the configured server
    port, and neither exists without the other. *)
Theorem matches_follow_devices (c : op) (st : state) :
  matches_agree (self st) ->
  matches_agree (self (snd (run_op env c st))).
Proof.
  intros H.
  assert (L : forall s, matches_agree (self s) ->
                        matches_agree (self (snd (launch env s)))).
  { intros s. apply agree_of_keeps.
    unfold launch, connect, subprocess_call. steps. }
  destruct (assigns c) eqn:Hc.
  - destruct c; try discriminate Hc; cbn [run_op].
    + (* start *)
      assert (E : self (snd (returning_none (start env) st))
                  = self (snd (start env st))).
      { unfold returning_none, bind. now destruct (start env st) as [[u|e] s1]. }
      rewrite E, start_run.
      destruct (truthy (server (self st))); [now apply L|].
      pose proof (discover_server_agrees st H) as D.
      destruct (discover_server env st) as [[found|e] st1]; cbn [snd] in *;
        [|exact D].
      apply L. exact D.
    + (* connect *)
      apply agree_of_keeps; [|exact H].
      apply returning_none_keeps. unfold connect. steps.
  - apply agree_of_keeps; [|exact H]. now apply other_ops_keep.
Qed.

End Instance.

(** *** The other methods at concrete inputs *)

Lemma start_success_witness :
  emitted (start (world [Some printer; Some lms] [])) unconfigured
    = [EDiscover "ssdp:all";
       EServerConnect (mkServer (Some "192.168.1.50") 9090%Z);
       EGetPlayer (mkServer (Some "192.168.1.50") 9090%Z) (Some "12:34:56:78:90:AB");
       ECall ["/usr/bin/squeezelite"; "-z"; "-n"; "Squeezelite";
              "-m"; "12:34:56:78:90:AB"; "-s"; "192.168.1.50"]]
  /\ sc (self (snd (start (world [Some printer; Some lms] []) unconfigured)))
     = Some (mkServer (Some "192.168.1.50") 9090%Z)
  /\ exists pl,
       player (self (snd (start (world [Some printer; Some lms] []) unconfigured)))
         = Some pl
       /\ server_get_player (world [Some printer; Some lms] [])
            [EDiscover "ssdp:all";
             EServerConnect (mkServer (Some "192.168.1.50") 9090%Z)]
            (mkServer (Some "192.168.1.50") 9090%Z) (Some "12:34:56:78:90:AB")
          = Ok pl.
Proof.
  exact (start_success (world [Some printer; Some lms] []) unconfigured eq_refl).
Defined.

Lemma start_without_session_spawns_nothing_witness :
  (exists e, fst (start Outage.world unconfigured) = Raise e)
  /\ filter is_process (emitted (start Outage.world) unconfigured) = [].
Proof.
  apply (start_without_session_spawns_nothing Outage.world unconfigured).
  left. intros h srv. exists (LibraryError "Connection refused"). reflexivity.
Defined.

Lemma start_discovery_failure_witness :
  fst (start (world [Some printer] []) unconfigured)
    = Raise (PySqueezeliteError (no_servers_msg 9000))
  /\ emitted (start (world [Some printer] [])) unconfigured = [EDiscover "ssdp:all"]
  /\ server (self (snd (start (world [Some printer] []) unconfigured))) = None
  /\ sc (self (snd (start (world [Some printer] []) unconfigured))) = None
  /\ player (self (snd (start (world [Some printer] []) unconfigured))) = None.
Proof.
  exact (start_discovery_failure (world [Some printer] []) unconfigured
           (PySqueezeliteError (no_servers_msg 9000)) eq_refl eq_refl).
Defined.

Lemma start_again_skips_discovery_witness :
  server (self (snd (start Outage.world unconfigured))) = Some "192.168.1.50"
  /\ filter is_discovery
       (emitted (start Outage.world) (snd (start Outage.world unconfigured))) = [].
Proof.
  apply (start_again_skips_discovery Outage.world unconfigured "192.168.1.50");
    [reflexivity | reflexivity | discriminate].
Defined.


Lemma player_needed_witness :
  run_op (world [] []) OpTrackTitle unconfigured
    = (Raise (AttributeError "player"), unconfigured).
Proof.
  apply (player_needed (world [] []) OpTrackTitle unconfigured); reflexivity.
Defined.

Lemma transport_dispatch_witness :
  next_track Outage.world connected = (Raise (AttributeError "next"), connected).
Proof.
  apply (transport_dispatch Outage.world (next_track Outage.world) "next"
           connected (PyObj 1)).
  - simpl. auto.
  - reflexivity.
Defined.

Lemma discover_server_returns_the_only_match_witness :
  exists resp i d,
    ssdp_discover (world [Some printer; Some lms; None] []) [] "ssdp:all" = Ok resp
    /\ nth_error resp i = Some (Some d)
    /\ ip d = "192.168.1.50"
    /\ on_port 9000 (Some d) = true
    /\ forall j e, nth_error resp j = Some e -> on_port 9000 e = true -> j = i.
Proof.
  exact (discover_server_returns_the_only_match
           (world [Some printer; Some lms; None] []) unconfigured
           "192.168.1.50" eq_refl).
Defined.

Lemma only_start_and_connect_assign_witness :
  self (snd (run_op (world [] ["12"]) OpKill connected)) = self connected.
Proof.
  apply (only_start_and_connect_assign (world [] ["12"]) OpKill connected).
  reflexivity.
Defined.


Lemma matches_follow_devices_witness :
  matches_agree (self (snd (run_op (world [Some lms] []) OpStart unconfigured))).
Proof.
  apply (matches_follow_devices (world [Some lms] []) OpStart unconfigured).
  reflexivity.
Defined.
